(** * bronx: the pairwise shim and the guarded-import checker

  A shallow embedding of [bronx/compat/itertools.py] and
  [bronx/syntax/externalcode.py], followed by the properties proved about
  them.  Python values are an inductive type, a [dict] with string keys is
  a [gmap string _], keyword arguments are an association list in call
  order, and code that may raise returns a [result]. *)

From Stdlib Require Import Ascii String.
From stdpp Require Import gmap strings list pretty.

(** ** The fragment of Python the two modules rely on *)

Module python.

(** Values stored in the registry and passed as requirements.  A [str] is
    a [string] whose characters are the code points U+0000 to U+00FF. *)
Inductive pyval :=
| PyNone
| PyBool (b : bool)
| PyInt (z : Z)
| PyStr (s : string)
| PyObject (name : string).

(** [a == b]: [bool] is a subclass of [int], objects compare by identity. *)
Definition int_of_bool (b : bool) : Z := if b then 1%Z else 0%Z.

Definition py_eq (a b : pyval) : bool :=
  match a, b with
  | PyNone, PyNone => true
  | PyBool x, PyBool y => Bool.eqb x y
  | PyBool x, PyInt y => (int_of_bool x =? y)%Z
  | PyInt x, PyBool y => (x =? int_of_bool y)%Z
  | PyInt x, PyInt y => (x =? y)%Z
  | PyStr x, PyStr y => String.eqb x y
  | PyObject x, PyObject y => String.eqb x y
  | _, _ => false
  end.

(** [str(v)], what the [{!s}] conversion of [str.format] produces. *)
Definition py_str (v : pyval) : string :=
  match v with
  | PyNone => "None"
  | PyBool true => "True"
  | PyBool false => "False"
  | PyInt z => pretty z
  | PyStr s => s
  | PyObject name => name
  end.

(** [type(v).__name__] *)
Definition type_name (v : pyval) : string :=
  match v with
  | PyNone => "NoneType"
  | PyBool _ => "bool"
  | PyInt _ => "int"
  | PyStr _ => "str"
  | PyObject _ => "object"
  end.

(** [bool(v)] *)
Definition truthy (v : pyval) : bool :=
  match v with
  | PyNone => false
  | PyBool b => b
  | PyInt z => negb (z =? 0)%Z
  | PyStr s => negb (String.eqb s "")
  | PyObject _ => true
  end.

(** An exception: the method resolution order of its class, most derived
    first, and its message. *)
Record exception := Raise { exc_type : list string; exc_value : string }.

Definition issubclass (cls : list string) (base : string) : bool :=
  bool_decide (base ∈ cls).

Definition builtin_exception (name msg : string) : exception :=
  Raise [name; "Exception"; "BaseException"; "object"] msg.

Definition RuntimeError := builtin_exception "RuntimeError".
Definition ValueError := builtin_exception "ValueError".
Definition TypeError := builtin_exception "TypeError".
Definition AttributeError := builtin_exception "AttributeError".
Definition ImportError := builtin_exception "ImportError".
Definition ModuleNotFoundError (msg : string) : exception :=
  Raise ["ModuleNotFoundError"; "ImportError"; "Exception"; "BaseException"; "object"] msg.

(** Outcome of running code that may raise. *)
Inductive result (A : Type) :=
| Ok (a : A)
| Err (e : exception).
Global Arguments Ok {A} a.
Global Arguments Err {A} e.

Global Instance result_ret : MRet result := λ A a, Ok a.
Global Instance result_bind : MBind result := λ A B f m,
  match m with
  | Ok a => f a
  | Err e => Err e
  end.
Global Instance result_fmap : FMap result := λ A B f m,
  match m with
  | Ok a => Ok (f a)
  | Err e => Err e
  end.

(** [a and b] on booleans: [b] is not evaluated when [a] is false, so an
    exception [b] would raise is not raised. *)
Definition py_and (a : bool) (b : result bool) : result bool :=
  if a then b else Ok false.

Definition kwargs := list (string * pyval).

(** A function object (an instance of [types.FunctionType]). *)
Record function := {
  __name__ : string;
  __doc__ : option string;
  __code__ : list pyval → kwargs → result pyval;
}.

(** What a class namespace binds a name to. *)
Inductive attribute :=
| Data (v : pyval)
| Method (f : function)
| ClassMethod (f : function).

(** A class: its name and the attributes visible through it. *)
Record pyclass := { cls_name : string; cls_dict : gmap string attribute }.

Definition getattr (cls : pyclass) (name : string) : result attribute :=
  match cls_dict cls !! name with
  | Some a => Ok a
  | None =>
      Err (AttributeError ("type object '" +:+ cls_name cls +:+
                           "' has no attribute '" +:+ name +:+ "'"))
  end.

Definition setattr (cls : pyclass) (name : string) (a : attribute) : pyclass :=
  {| cls_name := cls_name cls; cls_dict := <[name := a]> (cls_dict cls) |}.

(** Calling an attribute looked up on the class [cls]: a method found
    through the class is a plain function, a class method is bound to the
    class. *)
Definition call_attribute (cls : pyclass) (a : attribute)
    (args : list pyval) (kw : kwargs) : result pyval :=
  match a with
  | Data _ => Err (TypeError "object is not callable")
  | Method f => __code__ f args kw
  | ClassMethod f => __code__ f (PyObject (cls_name cls) :: args) kw
  end.

(** Instantiation of [cls] with the given arguments: [type.__call__] calls
    [cls.__new__] with the class and the arguments, then [__init__] on the
    object it returned. *)
Definition instantiate (cls : pyclass) (args : list pyval) (kw : kwargs)
    : result pyval :=
  new ← getattr cls "__new__";
  obj ← call_attribute cls new (PyObject (cls_name cls) :: args) kw;
  match cls_dict cls !! "__init__" with
  | Some init => _ ← call_attribute cls init (obj :: args) kw; Ok obj
  | None => Ok obj
  end.

(** The objects a decorator can be handed: a function, a class, or a value
    that is neither and cannot be called.  Of these values only an instance
    of a user class accepts a new attribute; the attribute set on it is read
    by nothing here, so the instance is its own record. *)
Inductive pyobj :=
| Function (f : function)
| Class (c : pyclass)
| Plain (v : pyval).

Definition callable (o : pyobj) : bool :=
  match o with
  | Function _ | Class _ => true
  | Plain _ => false
  end.

(** [isinstance(o, types.FunctionType)] *)
Definition is_function (o : pyobj) : bool :=
  match o with
  | Function _ => true
  | _ => false
  end.

(** [hasattr(o, '__new__')]: functions and plain values inherit the hook
    from their type, a class has it when its namespace resolves the name. *)
Definition has_new (o : pyobj) : bool :=
  match o with
  | Function _ => true
  | Class c => bool_decide (is_Some (cls_dict c !! "__new__"))
  | Plain _ => true
  end.

End python.

Import python.

(** ** bronx/compat/itertools.py *)

(** The module defines [pairwise] itself when
    [sys.version_info.major == 3 and sys.version_info.major < 10], which is
    every Python 3 interpreter; that definition is the one embedded. *)

Module itertools.
Section pairwise.
Context {A : Type}.

(** An iterator over a finite sequence is the list of the items it has
    yet to produce. *)
Definition tee (iterable : list A) : list A * list A := (iterable, iterable).

(** [next(it, default)]: the next item and the advanced iterator, or the
    default once the iterator is exhausted. *)
Definition next (it : list A) (default : option A) : option A * list A :=
  match it with
  | [] => (default, [])
  | x :: it' => (Some x, it')
  end.

(** [zip(a, b)] stops as soon as either iterator is exhausted. *)
Fixpoint zip (a b : list A) : list (A * A) :=
  match a, b with
  | x :: a', y :: b' => (x, y) :: zip a' b'
  | _, _ => []
  end.

Definition pairwise (iterable : list A) : list (A * A) :=
  let '(a, b) := tee iterable in
  let '(_, b) := next b None in
  zip a b.

End pairwise.
End itertools.

(** ** bronx/syntax/externalcode.py *)

Module externalcode.

(** *** The crude [version_cb], used when neither [distutils] nor
    [packaging] can be imported *)

(** Where the scan of [(\.0+)*] stands: between two groups, just after a
    dot, or inside the zeros of a group. *)
Inductive tail_state := Boundary | Dot | Zeros.

Definition accepting (st : tail_state) : bool :=
  match st with
  | Dot => false
  | _ => true
  end.

Definition newline : string := String "010"%char "".

(** [tail_match st s]: does [(\.0+)*$] match the whole of [s]?  [$] matches
    at the end of the string and just before a newline that ends it; the
    answer is what is left after the match. *)
Fixpoint tail_match (st : tail_state) (s : string) : option string :=
  match s with
  | "" => if accepting st then Some "" else None
  | String c s' =>
      if accepting st && String.eqb s newline then Some s
      else match st with
           | Boundary => if Ascii.eqb c "."%char then tail_match Dot s' else None
           | Dot => if Ascii.eqb c "0"%char then tail_match Zeros s' else None
           | Zeros => if Ascii.eqb c "0"%char then tail_match Zeros s'
                      else if Ascii.eqb c "."%char then tail_match Dot s'
                      else None
           end
  end.

(** [re.sub(r'(\.0+)*$', '', s)]: the leftmost position at which the
    pattern matches starts the text that is removed. *)
Fixpoint strip_trailing_zeros (s : string) : string :=
  match tail_match Boundary s with
  | Some rest => rest
  | None =>
      match s with
      | "" => ""
      | String c s' => String c (strip_trailing_zeros s')
      end
  end.

(** [s.split(".")] *)
Fixpoint split_dot (s : string) : list string :=
  match s with
  | "" => [""]
  | String c s' =>
      if Ascii.eqb c "."%char then "" :: split_dot s'
      else match split_dot s' with
           | w :: ws => String c w :: ws
           | [] => [String c ""]
           end
  end.

Definition is_decimal (c : ascii) : bool :=
  let n := Ascii.N_of_ascii c in (48 <=? n)%N && (n <=? 57)%N.

(** Characters with the Unicode property [Digit]: the decimal digits and
    the superscripts U+00B2, U+00B3 and U+00B9. *)
Definition is_digit (c : ascii) : bool :=
  let n := Ascii.N_of_ascii c in
  is_decimal c || (n =? 178)%N || (n =? 179)%N || (n =? 185)%N.

(** [x.isdigit()]: at least one character, all of them digits. *)
Definition isdigit (x : string) : bool :=
  negb (String.eqb x "") && forallb is_digit (list_ascii_of_string x).

(** [int(x)] for a string of digits; a superscript digit is no literal. *)
Definition int (x : string) : result N :=
  if forallb is_decimal (list_ascii_of_string x) then
    Ok (fold_left (λ acc c, acc * 10 + (Ascii.N_of_ascii c - 48))%N
                  (list_ascii_of_string x) 0%N)
  else Err (ValueError ("invalid literal for int() with base 10: '" +:+ x +:+ "'")).

(** The list comprehension [[int(x) for x in xs if x.isdigit()]]. *)
Fixpoint int_components (xs : list string) : result (list N) :=
  match xs with
  | [] => Ok []
  | x :: xs' =>
      if isdigit x then n ← int x; ns ← int_components xs'; Ok (n :: ns)
      else int_components xs'
  end.

(** Crude version processing. *)
Definition crude_version_cb (version1 : pyval) : result (list N) :=
  match version1 with
  | PyStr s => int_components (split_dot (strip_trailing_zeros s))
  | _ => Err (TypeError "expected string or bytes-like object")
  end.

(** [a >= b] on tuples of integers. *)
Fixpoint tuple_ge (a b : list N) : bool :=
  match a, b with
  | _, [] => true
  | [], _ :: _ => false
  | x :: a', y :: b' => if (x =? y)%N then tuple_ge a' b' else (y <? x)%N
  end.

(** *** What the module imports *)

(** [version_cb] is [distutils.version.LooseVersion], or
    [packaging.version.parse], or the crude fallback, depending on the
    interpreter; [join_list_in_proper_english] comes from
    [bronx.fancies.display] and [format_exception] from [traceback];
    [type_doc] is the docstring of the type of a value, which is what the
    value's own [__doc__] reads. *)
Class Imports := {
  version_t : Type;
  version_cb : pyval → result version_t;
  version_ge : version_t → version_t → result bool;
  join_list_in_proper_english : list string → string;
  format_exception : exception → list string;
  type_doc : pyval → option string;
}.

Inductive log_record :=
| warning (msg : string)
| info (msg : string).

Definition ExternalCodeUnavailableError : string → exception :=
  builtin_exception "ExternalCodeUnavailableError".

(** *** class ExternalCodeImportChecker *)

Record ExternalCodeImportChecker := {
  nickname : string;
  _checked_out : option bool;
  _register : gmap string pyval;
}.

Definition __init__ (nickname : string) : ExternalCodeImportChecker :=
  {| nickname := nickname; _checked_out := None; _register := ∅ |}.

Section checker.
Context `{Imports}.

Definition _version_check (self : ExternalCodeImportChecker)
    (minimal_version : pyval) : result bool :=
  match _register self !! "version" with
  | None =>
      Err (RuntimeError ("No version registered for the " +:+ nickname self +:+
                         " package."))
  | Some registered =>
      a ← version_cb registered;
      b ← version_cb minimal_version;
      version_ge a b
  end.

Definition _item_check (self : ExternalCodeImportChecker)
    (itemname : string) (value : pyval) : result bool :=
  match _register self !! itemname with
  | None =>
      Err (RuntimeError ("No " +:+ itemname +:+ " registered for the " +:+
                         nickname self +:+ " package."))
  | Some registered => Ok (py_eq registered value)
  end.

(** [k in ('version', 'v')] *)
Definition is_version_key (k : string) : bool :=
  String.eqb k "version" || String.eqb k "v".

(** One iteration of the loop of [_kwargs_check]. *)
Definition _kwargs_check_item (self : ExternalCodeImportChecker)
    (accumulate : bool) (k : string) (v : pyval) : result bool :=
  if is_version_key k then py_and accumulate (_version_check self v)
  else py_and accumulate (_item_check self k v).

Fixpoint _kwargs_check_from (self : ExternalCodeImportChecker)
    (accumulate : bool) (items : kwargs) : result bool :=
  match items with
  | [] => Ok accumulate
  | (k, v) :: items' =>
      accumulate' ← _kwargs_check_item self accumulate k v;
      _kwargs_check_from self accumulate' items'
  end.

Definition _kwargs_check (self : ExternalCodeImportChecker) (kwargs : kwargs)
    : result bool :=
  _kwargs_check_from self true kwargs.

Definition __enter__ (self : ExternalCodeImportChecker) : gmap string pyval :=
  _register self.

(** [__exit__] is given the exception the block raised, if any; it answers
    with the updated checker, its return value and what it logged. *)
Definition __exit__ (self : ExternalCodeImportChecker) (exc : option exception)
    : ExternalCodeImportChecker * pyval * list log_record :=
  match exc with
  | None =>
      ({| nickname := nickname self; _checked_out := Some true;
          _register := _register self |}, PyNone, [])
  | Some e =>
      if issubclass (exc_type e) "ImportError" then
        ({| nickname := nickname self; _checked_out := Some false;
            _register := _register self |},
         PyBool true,
         [warning ("The " +:+ nickname self +:+ " package is unavailable.");
          info ("Associated " +:+ String.concat "" (format_exception e))])
      else (self, PyNone, [])
  end.

(** The [with] statement around a block.  The block works on the very
    dictionary [__enter__] returned, so what it stored is in the register
    whether or not it raised; an exception leaves the statement unless
    [__exit__] returns a true value. *)
Definition with_block (self : ExternalCodeImportChecker)
    (block : gmap string pyval → gmap string pyval * option exception)
    : ExternalCodeImportChecker * list log_record * option exception :=
  let '(register, raised) := block (__enter__ self) in
  let self := {| nickname := nickname self; _checked_out := _checked_out self;
                 _register := register |} in
  let '(self, suppress, logs) := __exit__ self raised in
  (self, logs, if truthy suppress then None else raised).

Definition is_available (self : ExternalCodeImportChecker) (kwargs : kwargs)
    : result bool :=
  match _checked_out self with
  | None =>
      Err (RuntimeError ("No import was attempted yet for package " +:+
                         nickname self +:+ "."))
  | Some checked_out => py_and checked_out (_kwargs_check self kwargs)
  end.

(** [sorted(kwargs.items())]: the keys of a dictionary are distinct, so the
    order of the keys decides and the values are never compared. *)
Fixpoint insort (item : string * pyval) (items : kwargs) : kwargs :=
  match items with
  | [] => [item]
  | item' :: items' =>
      if String.leb item.1 item'.1 then item :: items
      else item' :: insort item items'
  end.

Definition sorted (items : kwargs) : kwargs := foldr insort [] items.

Definition format_requirement (item : string * pyval) : string :=
  let '(k, v) := item in
  if is_version_key k then k +:+ ">=" +:+ py_str v
  else k +:+ "==" +:+ py_str v.

Definition _format_exception_message (self : ExternalCodeImportChecker)
    (kwargs : kwargs) : string :=
  match kwargs with
  | [] => "The " +:+ nickname self +:+ " package is unavailable."
  | _ =>
      let requirements := format_requirement <$> sorted kwargs in
      "The " +:+ nickname self +:+ " package is unavailable (with " +:+
      join_list_in_proper_english requirements +:+ ")."
  end.

(** The docstring read off an attribute, as in
    [func_or_cls.__new__.__doc__]. *)
Definition attribute_doc (a : attribute) : option string :=
  match a with
  | Data v => type_doc v
  | Method f | ClassMethod f => __doc__ f
  end.

(** The inner function of [disabled_if_unavailable]; [available] and
    [kwargs] are the variables it closes over. *)
Definition actual_disabled_if_unavailable (self : ExternalCodeImportChecker)
    (kwargs : kwargs) (available : bool) (func_or_cls : pyobj) : result pyobj :=
  let isfunction := is_function func_or_cls in
  if negb isfunction && negb (has_new func_or_cls) then
    Err (TypeError "Old-Style classes are not supported by this module.")
  else if available then Ok func_or_cls
  else
    let excmsg := _format_exception_message self kwargs in
    match func_or_cls with
    | Function f =>
        let error_wrap :=
          {| __name__ := __name__ f;
             __doc__ := __doc__ f;
             __code__ := λ _ _, Err (ExternalCodeUnavailableError excmsg) |} in
        Ok (Function error_wrap)
    | Class c =>
        new ← getattr c "__new__";
        let error_new :=
          {| __name__ := "__new__";
             __doc__ := attribute_doc new;
             __code__ := λ _ _, Err (ExternalCodeUnavailableError excmsg) |} in
        Ok (Class (setattr c "__new__" (ClassMethod error_new)))
    | Plain v =>
        match v with
        | PyObject _ => Ok func_or_cls
        | _ => Err (AttributeError ("'" +:+ type_name v +:+
                                    "' object attribute '__new__' is read-only"))
        end
    end.

(** What [disabled_if_unavailable] returns: the decorated object when it was
    used as a bare decorator, the decorator itself otherwise. *)
Inductive decoration :=
| Decorated (o : pyobj)
| Decorator (d : pyobj → result pyobj).

Definition disabled_if_unavailable (self : ExternalCodeImportChecker)
    (kargs : list pyobj) (kwargs : kwargs) : result decoration :=
  direct_deco ←
    match kargs with
    | [] => Ok false
    | karg0 :: _ =>
        if callable karg0 then Ok true
        else Err (ValueError "kargs needs to be a callable")
    end;
  available ← is_available self kwargs;
  match direct_deco, kargs with
  | true, karg0 :: _ =>
      Decorated <$> actual_disabled_if_unavailable self kwargs available karg0
  | _, _ => Ok (Decorator (actual_disabled_if_unavailable self kwargs available))
  end.

(** The error raised before any acquisition. *)
Definition not_attempted_yet (self : ExternalCodeImportChecker) : exception :=
  RuntimeError ("No import was attempted yet for package " +:+ nickname self +:+ ".").

(** The error raised for a name the register lacks. *)
Definition not_registered (self : ExternalCodeImportChecker) (name : string)
    : exception :=
  RuntimeError ("No " +:+ name +:+ " registered for the " +:+ nickname self +:+
                " package.").

(** The register entry a requirement keyed [k] is checked against. *)
Definition registered_name (k : string) : string :=
  if is_version_key k then "version" else k.

End checker.

(** The module as it is when the crude [version_cb] is in use. *)
Definition crude_imports (join : list string → string)
    (format_exc : exception → list string) (doc : pyval → option string)
    : Imports :=
  {| version_t := list N;
     version_cb := crude_version_cb;
     version_ge := λ a b, Ok (tuple_ge a b);
     join_list_in_proper_english := join;
     format_exception := format_exc;
     type_doc := doc |}.

End externalcode.

Import itertools externalcode.

(** ** Concrete checkers, functions and classes to run the model on *)

Module samples.

(** The module with the crude [version_cb]; a comma-separated list stands
    in for the rendering of the requirements. *)
Definition imports : Imports :=
  crude_imports (String.concat ", ") (λ e, [exc_value e]) (λ _, None).

Definition echecker : ExternalCodeImportChecker := __init__ "anypackage".

(** The guarded block imports the package and registers its version. *)
Definition import_succeeds (register : gmap string pyval)
    : gmap string pyval * option exception :=
  (<["version" := PyStr "2.0.0"]> register, None).

(** The package is not installed. *)
Definition import_fails (register : gmap string pyval)
    : gmap string pyval * option exception :=
  (register, Some (ModuleNotFoundError "No module named 'anypackage'")).

(** The block breaks for a reason that is not an import failure. *)
Definition block_crashes (register : gmap string pyval)
    : gmap string pyval * option exception :=
  (register, Some (ValueError "not an import problem")).

(** The block registers a capability flag, no version. *)
Definition import_registers_feature (register : gmap string pyval)
    : gmap string pyval * option exception :=
  (<["feature" := PyInt 0]> register, None).

Definition after (block : gmap string pyval → gmap string pyval * option exception)
    : ExternalCodeImportChecker :=
  (with_block (H := imports) echecker block).1.1.

Definition sayhi : function :=
  {| __name__ := "sayhi";
     __doc__ := Some "Say hi.";
     __code__ := λ _ _, Ok (PyStr "hi") |}.

Definition object_new : function :=
  {| __name__ := "__new__";
     __doc__ := Some "Create and return a new object.";
     __code__ := λ args _, Ok (PyObject "instance") |}.

Definition Greeter : pyclass :=
  {| cls_name := "Greeter";
     cls_dict := {[ "__new__" := Method object_new;
                    "greeting" := Data (PyStr "hi") ]} |}.

(** A legacy class: nothing resolves [__new__]. *)
Definition OldStyle : pyclass :=
  {| cls_name := "OldStyle"; cls_dict := {[ "greeting" := Data (PyStr "hi") ]} |}.

End samples.

(** * Properties *)


(** ** pairwise *)

Section pairwise_facts.
Context {A : Type}.
Implicit Types (a b xs : list A).

Lemma zip_length a b : length (zip a b) = length a `min` length b.
Proof.
  revert b; induction a as [|x a IH]; intros [|y b]; simpl; auto.
Qed.

Lemma zip_lookup a b i :
  zip a b !! i = (x ← a !! i; y ← b !! i; Some (x, y)).
Proof.
  revert b i; induction a as [|x a IH]; intros [|y b] [|i]; simpl; auto.
  by destruct (a !! i).
Qed.

Lemma pairwise_unfold xs : pairwise xs = zip xs (tail xs).
Proof. by destruct xs. Qed.

Lemma pairwise_length xs : length (pairwise xs) = length xs - 1.
Proof.
  rewrite pairwise_unfold, zip_length. destruct xs; cbn [tail length]; lia.
Qed.

Lemma pairwise_lookup xs i :
  pairwise xs !! i = (x ← xs !! i; y ← xs !! (i + 1); Some (x, y)).
Proof.
  rewrite pairwise_unfold, zip_lookup.
  replace (i + 1) with (S i) by lia. by destruct xs.
Qed.

End pairwise_facts.

(** C5.  For a finite sequence of [n >= 2] elements, [pairwise] yields
    exactly [n - 1] pairs and the [i]-th pair is made of the elements at
    positions [i] and [i + 1]; for a sequence of at most one element it
    yields no pair. *)
Theorem pairwise_consecutive_pairs {A : Type} (xs : list A) :
  (2 ≤ length xs →
     length (pairwise xs) = length xs - 1 ∧
     ∀ i, i < length xs - 1 →
       ∃ x y, xs !! i = Some x ∧ xs !! (i + 1) = Some y ∧
              pairwise xs !! i = Some (x, y)) ∧
  (length xs ≤ 1 → pairwise xs = []).
Proof.
  split.
  - intros Hlen. split; [apply pairwise_length|].
    intros i Hi.
    destruct (lookup_lt_is_Some_2 xs i) as [x Hx]; [lia|].
    destruct (lookup_lt_is_Some_2 xs (i + 1)) as [y Hy]; [lia|].
    exists x, y. split_and!; auto.
    by rewrite pairwise_lookup, Hx, Hy.
  - intros Hlen. apply length_zero_iff_nil.
    rewrite pairwise_length. lia.
Qed.

Lemma pairwise_consecutive_pairs_witness :
  (length (pairwise [1; 2; 3; 4]) = length [1; 2; 3; 4] - 1 ∧
   ∀ i, i < length [1; 2; 3; 4] - 1 →
     ∃ x y, [1; 2; 3; 4] !! i = Some x ∧ [1; 2; 3; 4] !! (i + 1) = Some y ∧
            pairwise [1; 2; 3; 4] !! i = Some (x, y)) ∧
  pairwise [7] = [].
Proof.
  split.
  - apply (pairwise_consecutive_pairs [1; 2; 3; 4]). simpl. lia.
  - apply (pairwise_consecutive_pairs [7]). simpl. lia.
Defined.

(** ** The checker *)

Section checker_facts.
Context `{Imports}.
Implicit Types (self : ExternalCodeImportChecker) (e : exception).

Lemma exit_import_error self e :
  issubclass (exc_type e) "ImportError" = true →
  ∃ logs, __exit__ self (Some e) =
    ({| nickname := nickname self; _checked_out := Some false;
        _register := _register self |}, PyBool true, logs).
Proof. intros He. unfold __exit__. rewrite He. eauto. Qed.

Lemma exit_other_error self e :
  issubclass (exc_type e) "ImportError" = false →
  __exit__ self (Some e) = (self, PyNone, []).
Proof. intros He. unfold __exit__. by rewrite He. Qed.

Lemma with_block_raised self block register e :
  block (__enter__ self) = (register, Some e) →
  with_block self block =
    let '(self', suppress, logs) :=
      __exit__ {| nickname := nickname self; _checked_out := _checked_out self;
                  _register := register |} (Some e) in
    (self', logs, if truthy suppress then None else Some e).
Proof. intros Hb. unfold with_block. by rewrite Hb. Qed.

Lemma kwargs_check_short_circuit self items :
  _kwargs_check_from self false items = Ok false.
Proof.
  induction items as [|[k v] items IH]; simpl; [done|].
  unfold _kwargs_check_item. by destruct (is_version_key k).
Qed.

Lemma kwargs_check_satisfied_prefix self pre rest :
  Forall (λ item, _kwargs_check_item self true item.1 item.2 = Ok true) pre →
  _kwargs_check_from self true (pre ++ rest) = _kwargs_check_from self true rest.
Proof.
  induction 1 as [|[k v] pre Hkv _ IH]; simpl in *; [done|]. by rewrite Hkv.
Qed.

Lemma kwargs_check_item_missing self k v :
  _register self !! registered_name k = None →
  _kwargs_check_item self true k v = Err (not_registered self (registered_name k)).
Proof.
  unfold registered_name, _kwargs_check_item, _version_check, _item_check.
  destruct (is_version_key k); simpl; by intros ->.
Qed.

End checker_facts.

(** C6.  As long as the acquisition block has not completed, every call to
    [is_available] raises the usage error, whatever the requirements. *)
Theorem is_available_before_acquisition `{Imports}
    (self : ExternalCodeImportChecker) (kwargs : kwargs) :
  _checked_out self = None →
  is_available self kwargs = Err (not_attempted_yet self).
Proof. intros Hout. unfold is_available. by rewrite Hout. Qed.

Lemma is_available_before_acquisition_witness :
  is_available (H := samples.imports) samples.echecker [("version", PyStr "1.0.0")]
  = Err (not_attempted_yet samples.echecker).
Proof.
  apply (is_available_before_acquisition (H := samples.imports)). reflexivity.
Defined.

(** C7.  Once the outcome is failed, [is_available] returns false for every
    set of requirements and raises nothing, whatever the register holds or
    lacks: no requirement is looked at. *)
Theorem is_available_after_failure `{Imports}
    (self : ExternalCodeImportChecker) (kwargs : kwargs) :
  _checked_out self = Some false →
  is_available self kwargs = Ok false.
Proof. intros Hout. unfold is_available. by rewrite Hout. Qed.

Lemma is_available_after_failure_witness :
  is_available (H := samples.imports) (samples.after samples.import_fails)
    [("feature", PyInt 1); ("version", PyStr "1.0.0")] = Ok false.
Proof.
  apply (is_available_after_failure (H := samples.imports)). reflexivity.
Defined.

(** C2.  When the block raises, the exception is kept from leaving the
    [with] statement if and only if its class derives from [ImportError];
    in that case the outcome becomes failed, and any other exception leaves
    the statement as it was raised (the outcome is then not touched). *)
Theorem exit_suppresses_exactly_import_errors `{Imports}
    (self : ExternalCodeImportChecker)
    (block : gmap string pyval → gmap string pyval * option exception)
    (register : gmap string pyval) (e : exception) :
  block (__enter__ self) = (register, Some e) →
  ∃ self' logs propagated,
    with_block self block = (self', logs, propagated) ∧
    (propagated = None ↔ issubclass (exc_type e) "ImportError" = true) ∧
    propagated = (if issubclass (exc_type e) "ImportError" then None else Some e) ∧
    _checked_out self' =
      (if issubclass (exc_type e) "ImportError" then Some false
       else _checked_out self).
Proof.
  intros Hblock. rewrite (with_block_raised _ _ _ _ Hblock).
  destruct (issubclass (exc_type e) "ImportError") eqn:He.
  - destruct (exit_import_error
                {| nickname := nickname self; _checked_out := _checked_out self;
                   _register := register |} e He) as [logs ->].
    eexists _, _, _. split; [reflexivity|]. simpl. by split_and!.
  - rewrite exit_other_error by done.
    eexists _, _, _. split; [reflexivity|]. simpl. by split_and!.
Qed.

Lemma exit_suppresses_exactly_import_errors_witness :
  ∃ self' logs propagated,
    with_block (H := samples.imports) samples.echecker samples.import_fails
      = (self', logs, propagated) ∧
    (propagated = None ↔
       issubclass (exc_type (ModuleNotFoundError "No module named 'anypackage'"))
         "ImportError" = true) ∧
    propagated =
      (if issubclass (exc_type (ModuleNotFoundError "No module named 'anypackage'"))
            "ImportError"
       then None
       else Some (ModuleNotFoundError "No module named 'anypackage'")) ∧
    _checked_out self' =
      (if issubclass (exc_type (ModuleNotFoundError "No module named 'anypackage'"))
            "ImportError"
       then Some false
       else _checked_out samples.echecker).
Proof.
  apply (exit_suppresses_exactly_import_errors (H := samples.imports)
           samples.echecker samples.import_fails ∅).
  reflexivity.
Defined.

(** C10.  An exception that is not an import error goes through the exit
    handler without any effect on the checker: the handler returns the
    checker as it got it, so after a block that raised such an exception
    the outcome is still unset, the register is as the block left it, and
    every later [is_available] raises the error of a checker never
    acquired. *)
Theorem other_exception_leaves_checker_unattempted `{Imports}
    (self : ExternalCodeImportChecker) (e : exception)
    (block : gmap string pyval → gmap string pyval * option exception)
    (register : gmap string pyval) :
  issubclass (exc_type e) "ImportError" = false →
  _checked_out self = None →
  block (__enter__ self) = (register, Some e) →
  (∀ checker, __exit__ checker (Some e) = (checker, PyNone, [])) ∧
  ∃ self',
    with_block self block = (self', [], Some e) ∧
    _checked_out self' = None ∧
    _register self' = register ∧
    ∀ kwargs, is_available self' kwargs = Err (not_attempted_yet self).
Proof.
  intros He Hout Hblock. split; [intros; by apply exit_other_error|].
  rewrite (with_block_raised _ _ _ _ Hblock), exit_other_error by done.
  eexists. split; [reflexivity|]. simpl. split_and!; try done.
  intros kwargs. unfold is_available. simpl. by rewrite Hout.
Qed.

Lemma other_exception_leaves_checker_unattempted_witness :
  (∀ checker, __exit__ (H := samples.imports) checker
                (Some (ValueError "not an import problem"))
              = (checker, PyNone, [])) ∧
  ∃ self',
    with_block (H := samples.imports) samples.echecker samples.block_crashes
      = (self', [], Some (ValueError "not an import problem")) ∧
    _checked_out self' = None ∧
    _register self' = ∅ ∧
    ∀ kwargs, is_available (H := samples.imports) self' kwargs
              = Err (not_attempted_yet samples.echecker).
Proof.
  apply (other_exception_leaves_checker_unattempted (H := samples.imports)
           samples.echecker (ValueError "not an import problem")
           samples.block_crashes ∅); reflexivity.
Defined.

(** C1, as the code has it.  After a successful acquisition, a requirement
    whose register entry is missing (the entry is [version] for the keys
    [version] and [v]) makes [is_available] raise the usage error when all
    the requirements before it are satisfied, whatever comes after it;
    the first unsatisfied requirement makes the call return false, the
    requirements after it being skipped. *)
Theorem missing_key_raises_after_satisfied_requirements `{Imports}
    (self : ExternalCodeImportChecker) (pre post : kwargs)
    (k : string) (v : pyval) :
  _checked_out self = Some true →
  Forall (λ item, _kwargs_check_item self true item.1 item.2 = Ok true) pre →
  (_register self !! registered_name k = None →
     is_available self (pre ++ (k, v) :: post)
     = Err (not_registered self (registered_name k))) ∧
  (_kwargs_check_item self true k v = Ok false →
     is_available self (pre ++ (k, v) :: post) = Ok false).
Proof.
  intros Hout Hpre. unfold is_available, _kwargs_check. rewrite Hout. simpl.
  rewrite (kwargs_check_satisfied_prefix _ _ _ Hpre). simpl. split.
  - intros Hmiss. by rewrite (kwargs_check_item_missing _ _ _ Hmiss).
  - intros ->. simpl. apply kwargs_check_short_circuit.
Qed.

Lemma missing_key_raises_after_satisfied_requirements_witness :
  is_available (H := samples.imports) (samples.after samples.import_registers_feature)
    ([("feature", PyInt 0)] ++ ("other", PyInt 2) :: [("feature", PyInt 1)])
  = Err (not_registered (samples.after samples.import_registers_feature)
           (registered_name "other")) ∧
  is_available (H := samples.imports) (samples.after samples.import_registers_feature)
    ([] ++ ("feature", PyInt 1) :: [("other", PyInt 2)])
  = Ok false.
Proof.
  split.
  - apply (missing_key_raises_after_satisfied_requirements (H := samples.imports)
             (samples.after samples.import_registers_feature)
             [("feature", PyInt 0)] [("feature", PyInt 1)] "other" (PyInt 2)).
    + reflexivity.
    + repeat constructor.
    + reflexivity.
  - apply (missing_key_raises_after_satisfied_requirements (H := samples.imports)
             (samples.after samples.import_registers_feature)
             [] [("other", PyInt 2)] "feature" (PyInt 1)).
    + reflexivity.
    + constructor.
    + reflexivity.
Defined.

(** C1 does not hold as stated: with [feature] registered as 0, the call
    [is_available(feature=1, other=2)] names the unregistered key [other]
    and yet returns false, the check of [other] being skipped once
    [feature] has failed. *)
Lemma missing_key_behind_failed_requirement :
  _checked_out (samples.after samples.import_registers_feature) = Some true ∧
  _register (samples.after samples.import_registers_feature)
    !! registered_name "other" = None ∧
  is_available (H := samples.imports)
    (samples.after samples.import_registers_feature)
    [("feature", PyInt 1); ("other", PyInt 2)] = Ok false ∧
  ¬ ∃ e, is_available (H := samples.imports)
           (samples.after samples.import_registers_feature)
           [("feature", PyInt 1); ("other", PyInt 2)] = Err e.
Proof.
  split_and!; try reflexivity.
  intros [e He]. discriminate He.
Qed.

(** C3.  After a successful acquisition, a lone requirement keyed [version]
    or [v] is answered by comparing the registered version with the
    required one: the call returns what [version_cb registered >=
    version_cb required] evaluates to.  With ["2.0.0"] registered and the
    crude [version_cb], requiring ["1.0.0"] gives true and requiring
    ["3.0.0"] gives false. *)
Theorem version_requirement_is_a_minimum `{Imports}
    (join : list string → string) (format_exc : exception → list string)
    (doc : pyval → option string)
    (self : ExternalCodeImportChecker) (k : string)
    (registered required : pyval) :
  _checked_out self = Some true →
  k = "version" ∨ k = "v" →
  (_register self !! "version" = Some registered →
     is_available self [(k, required)]
     = (a ← version_cb registered; b ← version_cb required; version_ge a b)) ∧
  (_register self !! "version" = Some (PyStr "2.0.0") →
     is_available (H := crude_imports join format_exc doc) self
       [(k, PyStr "1.0.0")] = Ok true ∧
     is_available (H := crude_imports join format_exc doc) self
       [(k, PyStr "3.0.0")] = Ok false).
Proof.
  intros Hout Hk.
  assert (is_version_key k = true) as Hkey by (by destruct Hk as [-> | ->]).
  assert (∀ (I : Imports) registered required,
            _register self !! "version" = Some registered →
            is_available (H := I) self [(k, required)]
            = (a ← version_cb registered; b ← version_cb required; version_ge a b))
    as Hgen.
  { intros I reg req Hreg.
    unfold is_available, _kwargs_check. rewrite Hout. simpl.
    unfold _kwargs_check_item, _version_check. rewrite Hkey, Hreg. simpl.
    destruct (version_cb reg) as [a|]; simpl; [|done].
    destruct (version_cb req) as [b|]; simpl; [|done].
    by destruct (version_ge a b). }
  split; [by apply Hgen|].
  intros Hreg. by rewrite !(Hgen _ _ _ Hreg).
Qed.

Lemma version_requirement_is_a_minimum_witness :
  (is_available (H := samples.imports) (samples.after samples.import_succeeds)
     [("v", PyStr "2.0")]
   = (a ← version_cb (Imports := samples.imports) (PyStr "2.0.0");
      b ← version_cb (Imports := samples.imports) (PyStr "2.0");
      version_ge a b)) ∧
  is_available (H := samples.imports) (samples.after samples.import_succeeds)
    [("version", PyStr "1.0.0")] = Ok true ∧
  is_available (H := samples.imports) (samples.after samples.import_succeeds)
    [("version", PyStr "3.0.0")] = Ok false.
Proof.
  split.
  - apply (version_requirement_is_a_minimum (H := samples.imports)
             (String.concat ", ") (λ e, [exc_value e]) (λ _, None)
             (samples.after samples.import_succeeds) "v"
             (PyStr "2.0.0") (PyStr "2.0")).
    + reflexivity.
    + right. reflexivity.
    + reflexivity.
  - apply (version_requirement_is_a_minimum (H := samples.imports)
             (String.concat ", ") (λ e, [exc_value e]) (λ _, None)
             (samples.after samples.import_succeeds) "version"
             (PyStr "2.0.0") (PyStr "2.0.0")).
    + reflexivity.
    + left. reflexivity.
    + reflexivity.
Defined.

(** ** The decorator *)

Section decorator_facts.
Context `{Imports}.
Implicit Types (self : ExternalCodeImportChecker) (f : function) (c : pyclass).

(** Both ways of using the decorator on a callable target come down to the
    inner function applied to that target. *)
Lemma disabled_if_unavailable_bare self kwargs available target :
  is_available self kwargs = Ok available →
  callable target = true →
  disabled_if_unavailable self [target] kwargs
  = Decorated <$> actual_disabled_if_unavailable self kwargs available target.
Proof.
  intros Hav Hcall. unfold disabled_if_unavailable. by rewrite Hcall, Hav.
Qed.

Lemma disabled_if_unavailable_factory self kwargs available :
  is_available self kwargs = Ok available →
  disabled_if_unavailable self [] kwargs
  = Ok (Decorator (actual_disabled_if_unavailable self kwargs available)).
Proof. intros Hav. unfold disabled_if_unavailable. by rewrite Hav. Qed.

Lemma getattr_setattr_ne c name name' a :
  name ≠ name' → getattr (setattr c name a) name' = getattr c name'.
Proof. intros Hne. unfold getattr, setattr. simpl. by rewrite lookup_insert_ne. Qed.

Lemma getattr_setattr_eq c name a : getattr (setattr c name a) name = Ok a.
Proof. unfold getattr, setattr. simpl. by rewrite lookup_insert_eq. Qed.

Lemma instantiate_raising_hook c g e :
  (∀ args kw, __code__ g args kw = Err e) →
  ∀ args kw, instantiate (setattr c "__new__" (ClassMethod g)) args kw = Err e.
Proof.
  intros Hg args kw. unfold instantiate. rewrite getattr_setattr_eq. simpl.
  by rewrite Hg.
Qed.

Lemma actual_disabled_class self kwargs c new :
  cls_dict c !! "__new__" = Some new →
  actual_disabled_if_unavailable self kwargs false (Class c)
  = Ok (Class (setattr c "__new__" (ClassMethod
         {| __name__ := "__new__";
            __doc__ := attribute_doc new;
            __code__ := λ _ _, Err (ExternalCodeUnavailableError
                                      (_format_exception_message self kwargs)) |}))).
Proof.
  intros Hnew. unfold actual_disabled_if_unavailable, has_new, getattr. simpl.
  rewrite bool_decide_eq_true_2 by eauto. by rewrite Hnew.
Qed.

Lemma actual_available self kwargs target :
  is_function target || has_new target = true →
  actual_disabled_if_unavailable self kwargs true target = Ok target.
Proof.
  intros Hok. unfold actual_disabled_if_unavailable.
  by destruct (is_function target), (has_new target).
Qed.

Lemma actual_rejects_old_style self kwargs available target :
  is_function target || has_new target = false →
  actual_disabled_if_unavailable self kwargs available target
  = Err (TypeError "Old-Style classes are not supported by this module.").
Proof.
  intros Hko. unfold actual_disabled_if_unavailable.
  by destruct (is_function target), (has_new target).
Qed.

End decorator_facts.

(** The guard on the instantiation hook comes before the availability test:
    a class that resolves no [__new__] is refused even when the package is
    available. *)
Example old_style_class_is_rejected :
  disabled_if_unavailable (H := samples.imports)
    (samples.after samples.import_succeeds) [Class samples.OldStyle] []
  = Err (TypeError "Old-Style classes are not supported by this module.").
Proof. reflexivity. Qed.

(** Something that cannot be called is no decorator target. *)
Example bare_decorator_needs_a_callable :
  disabled_if_unavailable (H := samples.imports)
    (samples.after samples.import_succeeds) [Plain (PyInt 1)] []
  = Err (ValueError "kargs needs to be a callable").
Proof. reflexivity. Qed.

(** The message of the error a disabled object raises. *)
Example unavailable_message :
  _format_exception_message (H := samples.imports)
    (samples.after samples.import_fails)
    [("version", PyStr "1.0.0"); ("otherthing", PyInt 1)]
  = "The anypackage package is unavailable (with otherthing==1, version>=1.0.0).".
Proof. reflexivity. Qed.

(** C4.  When the availability check is false, decorating a function, as a
    bare decorator or through the factory, gives a function with the name
    and the documentation string of the original that raises
    [ExternalCodeUnavailableError] at every call, whatever the arguments. *)
Theorem disabled_function_always_raises `{Imports}
    (self : ExternalCodeImportChecker) (kwargs : kwargs) (f : function) :
  is_available self kwargs = Ok false →
  ∃ error_wrap actual,
    disabled_if_unavailable self [Function f] kwargs
      = Ok (Decorated (Function error_wrap)) ∧
    disabled_if_unavailable self [] kwargs = Ok (Decorator actual) ∧
    actual (Function f) = Ok (Function error_wrap) ∧
    __name__ error_wrap = __name__ f ∧
    __doc__ error_wrap = __doc__ f ∧
    ∀ args kw,
      __code__ error_wrap args kw
      = Err (ExternalCodeUnavailableError (_format_exception_message self kwargs)).
Proof.
  intros Hav. eexists _, _.
  rewrite (disabled_if_unavailable_bare _ _ _ _ Hav) by done.
  rewrite (disabled_if_unavailable_factory _ _ _ Hav).
  by split_and!.
Qed.

Lemma disabled_function_always_raises_witness :
  ∃ error_wrap actual,
    disabled_if_unavailable (H := samples.imports)
      (samples.after samples.import_fails) [Function samples.sayhi] []
      = Ok (Decorated (Function error_wrap)) ∧
    disabled_if_unavailable (H := samples.imports)
      (samples.after samples.import_fails) [] []
      = Ok (Decorator actual) ∧
    actual (Function samples.sayhi) = Ok (Function error_wrap) ∧
    __name__ error_wrap = __name__ samples.sayhi ∧
    __doc__ error_wrap = __doc__ samples.sayhi ∧
    ∀ args kw,
      __code__ error_wrap args kw
      = Err (ExternalCodeUnavailableError
               (_format_exception_message (H := samples.imports)
                  (samples.after samples.import_fails) [])).
Proof.
  apply (disabled_function_always_raises (H := samples.imports)
           (samples.after samples.import_fails) [] samples.sayhi).
  reflexivity.
Defined.

(** C8.  When the availability check is false, decorating a class (one that
    has the [__new__] hook the decorator asks for) makes every
    instantiation raise [ExternalCodeUnavailableError]; reading an
    attribute through the decorated class raises nothing new, and every
    attribute but the hook itself reads as it did on the original class. *)
Theorem disabled_class_cannot_be_instantiated `{Imports}
    (self : ExternalCodeImportChecker) (kwargs : kwargs) (c : pyclass) :
  is_available self kwargs = Ok false →
  is_Some (cls_dict c !! "__new__") →
  ∃ c' actual,
    disabled_if_unavailable self [Class c] kwargs = Ok (Decorated (Class c')) ∧
    disabled_if_unavailable self [] kwargs = Ok (Decorator actual) ∧
    actual (Class c) = Ok (Class c') ∧
    (∀ args kw,
       instantiate c' args kw
       = Err (ExternalCodeUnavailableError (_format_exception_message self kwargs))) ∧
    (∀ name a, getattr c name = Ok a → ∃ a', getattr c' name = Ok a') ∧
    (∀ name, name ≠ "__new__" → getattr c' name = getattr c name).
Proof.
  intros Hav [new Hnew].
  eexists _, (actual_disabled_if_unavailable self kwargs false).
  rewrite (disabled_if_unavailable_bare _ _ _ _ Hav) by done.
  rewrite (disabled_if_unavailable_factory _ _ _ Hav).
  rewrite (actual_disabled_class _ _ _ _ Hnew).
  split_and!; try reflexivity.
  - by apply instantiate_raising_hook.
  - intros name a Ha. destruct (decide (name = "__new__")) as [->|Hne].
    + rewrite getattr_setattr_eq. eauto.
    + rewrite getattr_setattr_ne by done. eauto.
  - intros name Hne. by apply getattr_setattr_ne.
Qed.

Lemma disabled_class_cannot_be_instantiated_witness :
  ∃ c' actual,
    disabled_if_unavailable (H := samples.imports)
      (samples.after samples.import_succeeds) [Class samples.Greeter]
      [("version", PyStr "3.0.0")]
      = Ok (Decorated (Class c')) ∧
    disabled_if_unavailable (H := samples.imports)
      (samples.after samples.import_succeeds) [] [("version", PyStr "3.0.0")]
      = Ok (Decorator actual) ∧
    actual (Class samples.Greeter) = Ok (Class c') ∧
    (∀ args kw,
       instantiate c' args kw
       = Err (ExternalCodeUnavailableError
                (_format_exception_message (H := samples.imports)
                   (samples.after samples.import_succeeds)
                   [("version", PyStr "3.0.0")]))) ∧
    (∀ name a, getattr samples.Greeter name = Ok a → ∃ a', getattr c' name = Ok a') ∧
    (∀ name, name ≠ "__new__" → getattr c' name = getattr samples.Greeter name).
Proof.
  apply (disabled_class_cannot_be_instantiated (H := samples.imports)
           (samples.after samples.import_succeeds) [("version", PyStr "3.0.0")]
           samples.Greeter).
  - reflexivity.
  - exists (Method samples.object_new). reflexivity.
Defined.

(** C9.  When the availability check is true, decorating a function or a
    class (one that has the [__new__] hook the decorator asks for), as a
    bare decorator or through the factory, returns the very target it was
    given. *)
Theorem available_target_is_returned_unchanged `{Imports}
    (self : ExternalCodeImportChecker) (kwargs : kwargs) (target : pyobj) :
  is_available self kwargs = Ok true →
  (∃ f, target = Function f) ∨
  (∃ c, target = Class c ∧ is_Some (cls_dict c !! "__new__")) →
  ∃ actual,
    disabled_if_unavailable self [target] kwargs = Ok (Decorated target) ∧
    disabled_if_unavailable self [] kwargs = Ok (Decorator actual) ∧
    actual target = Ok target.
Proof.
  intros Hav Htarget.
  assert (callable target = true ∧ is_function target || has_new target = true)
    as [Hcall Hok].
  { destruct Htarget as [[f ->] | (c & -> & Hnew)]; [done|].
    split; [done|]. simpl. by apply bool_decide_eq_true_2. }
  exists (actual_disabled_if_unavailable self kwargs true).
  rewrite (disabled_if_unavailable_bare _ _ _ _ Hav) by done.
  rewrite (disabled_if_unavailable_factory _ _ _ Hav).
  by rewrite (actual_available _ _ _ Hok).
Qed.

Lemma available_target_is_returned_unchanged_witness :
  (∃ actual,
     disabled_if_unavailable (H := samples.imports)
       (samples.after samples.import_succeeds) [Function samples.sayhi] []
       = Ok (Decorated (Function samples.sayhi)) ∧
     disabled_if_unavailable (H := samples.imports)
       (samples.after samples.import_succeeds) [] []
       = Ok (Decorator actual) ∧
     actual (Function samples.sayhi) = Ok (Function samples.sayhi)) ∧
  (∃ actual,
     disabled_if_unavailable (H := samples.imports)
       (samples.after samples.import_succeeds) [Class samples.Greeter]
       [("version", PyStr "1.0.0")]
       = Ok (Decorated (Class samples.Greeter)) ∧
     disabled_if_unavailable (H := samples.imports)
       (samples.after samples.import_succeeds) [] [("version", PyStr "1.0.0")]
       = Ok (Decorator actual) ∧
     actual (Class samples.Greeter) = Ok (Class samples.Greeter)).
Proof.
  split.
  - apply (available_target_is_returned_unchanged (H := samples.imports)
             (samples.after samples.import_succeeds) [] (Function samples.sayhi)).
    + reflexivity.
    + left. exists samples.sayhi. reflexivity.
  - apply (available_target_is_returned_unchanged (H := samples.imports)
             (samples.after samples.import_succeeds) [("version", PyStr "1.0.0")]
             (Class samples.Greeter)).
    + reflexivity.
    + right. exists samples.Greeter. split; [reflexivity|].
      exists (Method samples.object_new). reflexivity.
Defined.

(** * Further properties *)

(** ** pairwise: how the pairs relate to the input *)

Section pairwise_more.
Context {A : Type}.
Implicit Types (a b xs ys : list A).

Lemma zip_fst a b : (zip a b).*1 = take (length b) a.
Proof.
  revert b; induction a as [|x a IH]; intros [|y b]; simpl; auto.
  by rewrite IH.
Qed.

Lemma zip_snd a b : (zip a b).*2 = take (length a) b.
Proof.
  revert b; induction a as [|x a IH]; intros [|y b]; simpl; auto.
  by rewrite IH.
Qed.

Lemma pairwise_cons_cons x y xs :
  pairwise (x :: y :: xs) = (x, y) :: pairwise (y :: xs).
Proof. reflexivity. Qed.

End pairwise_more.

(** X1.  Successive pairs overlap: the second element of a pair is the
    first element of the pair that follows it. *)
Theorem pairwise_pairs_overlap {A : Type} (xs : list A) (i : nat) (p q : A * A) :
  pairwise xs !! i = Some p →
  pairwise xs !! (i + 1) = Some q →
  p.2 = q.1.
Proof.
  rewrite !pairwise_lookup. intros Hp Hq.
  destruct (xs !! i) as [x|]; simpl in *; [|done].
  destruct (xs !! (i + 1)) as [y|]; simpl in *; [|done].
  destruct (xs !! (i + 1 + 1)) as [z|]; simpl in *; [|done].
  by simplify_eq.
Qed.

Lemma pairwise_pairs_overlap_witness : (2, 3).2 = (3, 4).1.
Proof.
  apply (pairwise_pairs_overlap [1; 2; 3; 4] 1 (2, 3) (3, 4)); reflexivity.
Defined.

(** X2.  The first elements of the pairs are the input without its last
    element and the second elements are the input without its first one, so
    nothing of the input is dropped or repeated out of place. *)
Theorem pairwise_projections {A : Type} (xs : list A) :
  (pairwise xs).*1 = take (length xs - 1) xs ∧
  (pairwise xs).*2 = drop 1 xs.
Proof.
  rewrite pairwise_unfold, zip_fst, zip_snd. split.
  - f_equal. destruct xs; simpl; lia.
  - destruct xs as [|x xs]; [done|]. simpl. rewrite drop_0.
    apply take_ge. lia.
Qed.

(** X3.  Pairing a concatenation: the pairs of the left part, the pair that
    straddles the junction, then the pairs of the right part. *)
Theorem pairwise_app {A : Type} (xs ys : list A) (x y : A) :
  pairwise ((xs ++ [x]) ++ y :: ys)
  = pairwise (xs ++ [x]) ++ (x, y) :: pairwise (y :: ys).
Proof.
  induction xs as [|a xs IH]; [done|].
  destruct xs as [|b xs]; [done|].
  change (pairwise (a :: b :: (xs ++ [x]) ++ y :: ys)
          = pairwise (a :: b :: xs ++ [x]) ++ (x, y) :: pairwise (y :: ys)).
  rewrite !pairwise_cons_cons. simpl. f_equal. exact IH.
Qed.

(** X4.  Pairing commutes with mapping a function over the sequence. *)
Theorem pairwise_fmap {A B : Type} (f : A → B) (xs : list A) :
  pairwise (f <$> xs) = prod_map f f <$> pairwise xs.
Proof.
  rewrite !pairwise_unfold.
  assert (∀ a b : list A, zip (f <$> a) (f <$> b) = prod_map f f <$> zip a b) as Hzip.
  { induction a as [|u a IH]; intros [|v b]; simpl; auto. by rewrite IH. }
  rewrite <- Hzip. by destruct xs.
Qed.

(** ** The checker: acquisition and the requirement loop *)

Section checker_more.
Context `{Imports}.
Implicit Types (self : ExternalCodeImportChecker).


Lemma kwargs_check_true_iff self items :
  _kwargs_check_from self true items = Ok true ↔
  Forall (λ item, _kwargs_check_item self true item.1 item.2 = Ok true) items.
Proof.
  induction items as [|[k v] items IH]; simpl.
  - split; [constructor|done].
  - destruct (_kwargs_check_item self true k v) as [[]|e] eqn:Hkv; simpl.
    + rewrite Forall_cons. simpl. split.
      * intros Hrest. split; [exact Hkv|by apply IH].
      * intros [_ Hrest]. by apply IH.
    + rewrite kwargs_check_short_circuit, Forall_cons. simpl. split.
      * discriminate.
      * intros [Hhead _]. congruence.
    + rewrite Forall_cons. simpl. split.
      * discriminate.
      * intros [Hhead _]. congruence.
Qed.

Lemma is_available_true_iff self kwargs :
  is_available self kwargs = Ok true ↔
  _checked_out self = Some true ∧
  Forall (λ item, _kwargs_check_item self true item.1 item.2 = Ok true) kwargs.
Proof.
  unfold is_available, _kwargs_check.
  destruct (_checked_out self) as [[]|]; simpl.
  - rewrite kwargs_check_true_iff. split; [done|by intros [_ ?]].
  - split; [discriminate|by intros [? _]].
  - split; [discriminate|by intros [? _]].
Qed.

End checker_more.

(** X5.  A block that ends without an exception makes the checker
    available, whatever its outcome was before: nothing is logged, nothing
    propagates, the register is the dictionary as the block left it, and
    [is_available()] without requirements is true. *)
Theorem clean_block_makes_available `{Imports}
    (self : ExternalCodeImportChecker)
    (block : gmap string pyval → gmap string pyval * option exception)
    (register : gmap string pyval) :
  block (__enter__ self) = (register, None) →
  ∃ self',
    with_block self block = (self', [], None) ∧
    nickname self' = nickname self ∧
    _checked_out self' = Some true ∧
    _register self' = register ∧
    is_available self' [] = Ok true.
Proof.
  intros Hblock. unfold with_block. rewrite Hblock. simpl.
  eexists. split; [reflexivity|]. by split_and!.
Qed.

Lemma clean_block_makes_available_witness :
  ∃ self',
    with_block (H := samples.imports) (samples.after samples.import_fails)
      samples.import_succeeds = (self', [], None) ∧
    nickname self' = nickname (samples.after samples.import_fails) ∧
    _checked_out self' = Some true ∧
    _register self' = {[ "version" := PyStr "2.0.0" ]} ∧
    is_available (H := samples.imports) self' [] = Ok true.
Proof.
  apply (clean_block_makes_available (H := samples.imports)
           (samples.after samples.import_fails) samples.import_succeeds).
  reflexivity.
Defined.

(** X6.  A block that raises an import error leaves exactly two log
    records, a warning that names the package and an informational record
    with the formatted exception; the checker keeps its nickname, and the
    register keeps what the block stored before it failed. *)
Theorem failed_import_is_logged `{Imports}
    (self : ExternalCodeImportChecker)
    (block : gmap string pyval → gmap string pyval * option exception)
    (register : gmap string pyval) (e : exception) :
  block (__enter__ self) = (register, Some e) →
  issubclass (exc_type e) "ImportError" = true →
  with_block self block =
    ({| nickname := nickname self; _checked_out := Some false;
        _register := register |},
     [warning ("The " +:+ nickname self +:+ " package is unavailable.");
      info ("Associated " +:+ String.concat "" (format_exception e))],
     None).
Proof.
  intros Hblock He. unfold with_block. rewrite Hblock. unfold __exit__.
  by rewrite He.
Qed.

Lemma failed_import_is_logged_witness :
  with_block (H := samples.imports) samples.echecker samples.import_fails =
    ({| nickname := "anypackage"; _checked_out := Some false; _register := ∅ |},
     [warning ("The " +:+ "anypackage" +:+ " package is unavailable.");
      info ("Associated " +:+
            String.concat ""
              (format_exception (Imports := samples.imports)
                 (ModuleNotFoundError "No module named 'anypackage'")))],
     None).
Proof.
  apply (failed_import_is_logged (H := samples.imports) samples.echecker
           samples.import_fails ∅
           (ModuleNotFoundError "No module named 'anypackage'"));
    reflexivity.
Defined.

(** X7.  [is_available] returns true exactly when the acquisition succeeded
    and every requirement, taken on its own, checks true: the result is the
    conjunction of the requirements. *)
Theorem is_available_is_the_conjunction `{Imports}
    (self : ExternalCodeImportChecker) (kwargs : kwargs) :
  is_available self kwargs = Ok true ↔
  _checked_out self = Some true ∧
  ∀ k v, (k, v) ∈ kwargs →
    (if is_version_key k then _version_check self v else _item_check self k v)
    = Ok true.
Proof.
  rewrite is_available_true_iff, Forall_forall.
  split; intros [Hout Hall]; (split; [done|]).
  - intros k v Hkv. apply (Hall (k, v)) in Hkv. revert Hkv. simpl.
    unfold _kwargs_check_item. by destruct (is_version_key k).
  - intros [k v] Hkv. apply Hall in Hkv. revert Hkv. simpl.
    unfold _kwargs_check_item. by destruct (is_version_key k).
Qed.

(** X8.  A true answer does not depend on the order in which the
    requirements are written. *)
Theorem is_available_true_in_any_order `{Imports}
    (self : ExternalCodeImportChecker) (kwargs kwargs' : kwargs) :
  kwargs ≡ₚ kwargs' →
  is_available self kwargs = Ok true →
  is_available self kwargs' = Ok true.
Proof.
  intros Hperm. rewrite !is_available_true_iff. intros [Hout Hall].
  split; [done|]. rewrite Forall_forall in *.
  intros item Hitem. apply Hall. by rewrite Hperm.
Qed.

Lemma is_available_true_in_any_order_witness :
  is_available (H := samples.imports)
    (samples.after (λ register,
       (<["feature" := PyInt 1]> (<["version" := PyStr "2.1"]> register), None)))
    [("feature", PyInt 1); ("version", PyStr "2.0.0")] = Ok true.
Proof.
  apply (is_available_true_in_any_order (H := samples.imports) _
           [("version", PyStr "2.0.0"); ("feature", PyInt 1)]).
  - apply Permutation_swap.
  - reflexivity.
Defined.



(** ** The crude version processing *)

Section crude_version.


Lemma tuple_ge_trans a b c :
  tuple_ge a b = true → tuple_ge b c = true → tuple_ge a c = true.
Proof.
  revert b c; induction a as [|x a IH]; intros [|y b] [|z c]; simpl; try done.
  destruct (N.eqb_spec x y) as [Hxy|Hxy]; destruct (N.eqb_spec y z) as [Hyz|Hyz];
    destruct (N.eqb_spec x z) as [Hxz|Hxz];
    rewrite ?N.ltb_lt; try lia; eauto.
Qed.

Lemma app_cons c s t : String c s +:+ t = String c (s +:+ t).
Proof. reflexivity. Qed.

(** Appending a group [.0] does not change whether the tail pattern
    matches, as long as no final newline is in the way. *)
Lemma tail_match_app_zero st s :
  (∀ p, s ≠ p +:+ newline) →
  tail_match st (s +:+ ".0") = tail_match st s.
Proof.
  revert st; induction s as [|c s IH]; intros st Hend.
  - by destruct st.
  - rewrite app_cons.
    assert (String.eqb (String c s) newline = false) as Hs.
    { apply String.eqb_neq. intros Heq. by apply (Hend ""). }
    assert (String.eqb (String c (s +:+ ".0")) newline = false) as Hs'.
    { apply String.eqb_neq. unfold newline. intros [= _ Heq].
      by destruct s. }
    assert (∀ p, s ≠ p +:+ newline) as Hend'.
    { intros p ->. by apply (Hend (String c p)). }
    cbn [tail_match]. rewrite Hs, Hs', !andb_false_r.
    destruct st; repeat case_match; auto.
Qed.

Lemma strip_trailing_zeros_app_zero s :
  (∀ p, s ≠ p +:+ newline) →
  strip_trailing_zeros (s +:+ ".0") = strip_trailing_zeros s.
Proof.
  induction s as [|c s IH]; intros Hend; [done|].
  assert (∀ p, s ≠ p +:+ newline) as Hend'.
  { intros p ->. by apply (Hend (String c p)). }
  rewrite app_cons. cbn [strip_trailing_zeros].
  rewrite <- app_cons, (tail_match_app_zero _ _ Hend).
  destruct (tail_match Boundary (String c s)); [done|].
  by rewrite (IH Hend').
Qed.





End crude_version.

Section crude_requirements.
Context (join : list string → string) (format_exc : exception → list string)
        (doc : pyval → option string).
Implicit Types (self : ExternalCodeImportChecker).


(** What a true answer to a lone version requirement says about the two
    version strings. *)
Lemma crude_version_requirement_true self k v r :
  k = "version" ∨ k = "v" →
  _register self !! "version" = Some v →
  is_available (H := crude_imports join format_exc doc) self [(k, r)] = Ok true ↔
  _checked_out self = Some true ∧
  ∃ a b, crude_version_cb v = Ok a ∧ crude_version_cb r = Ok b ∧
         tuple_ge a b = true.
Proof.
  intros Hk Hreg. rewrite (is_available_true_iff (H := crude_imports join format_exc doc)).
  rewrite Forall_singleton. simpl. unfold _kwargs_check_item, _version_check.
  assert (is_version_key k = true) as -> by (by destruct Hk as [-> | ->]).
  rewrite Hreg. simpl.
  destruct (crude_version_cb v) as [a|ea]; simpl.
  2: { split; [intros [_ [=]] | intros (_ & ? & ? & [=] & _)]. }
  destruct (crude_version_cb r) as [b|eb]; simpl.
  2: { split; [intros [_ [=]] | intros (_ & ? & ? & _ & [=] & _)]. }
  split.
  - intros [Hout Hab]. split; [done|]. exists a, b. split_and!; try done.
    by simplify_eq.
  - intros (Hout & a' & b' & [= <-] & [= <-] & Hab). split; [done|].
    by rewrite Hab.
Qed.

End crude_requirements.



(** X11.  Trailing zero components do not count: a version string and the
    same string followed by [.0] are processed to the same tuple, provided
    the string does not end with a newline. *)
Theorem crude_version_cb_ignores_trailing_zero (s : string) :
  (∀ p, s ≠ p +:+ newline) →
  crude_version_cb (PyStr (s +:+ ".0")) = crude_version_cb (PyStr s).
Proof.
  intros Hend. unfold crude_version_cb.
  by rewrite strip_trailing_zeros_app_zero.
Qed.

Lemma crude_version_cb_ignores_trailing_zero_witness :
  crude_version_cb (PyStr ("2.1" +:+ ".0")) = crude_version_cb (PyStr "2.1").
Proof.
  apply (crude_version_cb_ignores_trailing_zero "2.1").
  intros [|c1 [|c2 [|c3 [|c4 p]]]] Hp; cbv in Hp; discriminate Hp.
Defined.



(** X13.  With the crude [version_cb], version requirements chain: if the
    registered version meets the requirement [r], and a package registered
    at version [r] would meet the requirement [r'], then the registered
    version meets [r'] as well. *)
Theorem crude_version_requirements_chain
    (join : list string → string) (format_exc : exception → list string)
    (doc : pyval → option string)
    (self other : ExternalCodeImportChecker) (v r r' : pyval) :
  _register self !! "version" = Some v →
  _register other !! "version" = Some r →
  is_available (H := crude_imports join format_exc doc) self [("version", r)]
    = Ok true →
  is_available (H := crude_imports join format_exc doc) other [("version", r')]
    = Ok true →
  is_available (H := crude_imports join format_exc doc) self [("version", r')]
  = Ok true.
Proof.
  intros Hv Hr.
  rewrite !(crude_version_requirement_true _ _ _ _ "version" _ _ (or_introl eq_refl) Hv).
  rewrite (crude_version_requirement_true _ _ _ _ "version" _ _ (or_introl eq_refl) Hr).
  intros (Hout & a & b & Ha & Hb & Hab) (_ & b' & c & Hb' & Hc & Hbc).
  split; [done|]. exists a, c. split_and!; try done.
  rewrite Hb in Hb'. injection Hb' as <-.
  exact (tuple_ge_trans _ _ _ Hab Hbc).
Qed.

Lemma crude_version_requirements_chain_witness :
  is_available (H := samples.imports) (samples.after samples.import_succeeds)
    [("version", PyStr "1.4")] = Ok true.
Proof.
  apply (crude_version_requirements_chain (String.concat ", ")
           (λ e, [exc_value e]) (λ _, None)
           (samples.after samples.import_succeeds)
           (samples.after (λ register, (<["version" := PyStr "1.10"]> register, None)))
           (PyStr "2.0.0") (PyStr "1.10") (PyStr "1.4")); reflexivity.
Defined.

(** ** The message of the unavailable error *)

Section message.
Context `{Imports}.
Implicit Types (x y : string * pyval) (items : kwargs).

Lemma leb_trans (s1 s2 s3 : string) :
  String.leb s1 s2 = true → String.leb s2 s3 = true → String.leb s1 s3 = true.
Proof.
  intros H1%Is_true_true H2%Is_true_true. apply Is_true_true.
  exact (transitivity (R := String.le) H1 H2).
Qed.

Lemma leb_false_flip (s1 s2 : string) :
  String.leb s1 s2 = false → String.leb s2 s1 = true.
Proof. intros Hf. destruct (String.leb_total s1 s2); congruence. Qed.

Lemma leb_true_flip (s1 s2 : string) :
  s1 ≠ s2 → String.leb s1 s2 = true → String.leb s2 s1 = false.
Proof.
  intros Hne Hle. destruct (String.leb s2 s1) eqn:Hle'; [|done].
  destruct Hne. by apply String.leb_antisym.
Qed.

(** Insertions of items with different keys commute. *)
Lemma insort_comm x y items :
  x.1 ≠ y.1 → insort x (insort y items) = insort y (insort x items).
Proof.
  intros Hne.
  induction items as [|z items IH]; simpl.
  - destruct (String.leb x.1 y.1) eqn:H1.
    + by rewrite (leb_true_flip _ _ Hne H1).
    + by rewrite (leb_false_flip _ _ H1).
  - destruct (String.leb y.1 z.1) eqn:Hyz, (String.leb x.1 z.1) eqn:Hxz; simpl.
    + destruct (String.leb x.1 y.1) eqn:H1.
      * by rewrite (leb_true_flip _ _ Hne H1), Hyz.
      * by rewrite (leb_false_flip _ _ H1), Hxz.
    + rewrite Hyz.
      destruct (String.leb x.1 y.1) eqn:H1.
      * by rewrite (leb_trans _ _ _ H1 Hyz) in Hxz.
      * by rewrite Hxz.
    + rewrite Hxz.
      destruct (String.leb y.1 x.1) eqn:H1.
      * by rewrite (leb_trans _ _ _ H1 Hxz) in Hyz.
      * by rewrite Hyz.
    + by rewrite Hyz, Hxz, IH.
Qed.

Lemma sorted_permutation items items' :
  NoDup items.*1 → items ≡ₚ items' → sorted items = sorted items'.
Proof.
  intros Hnodup Hperm. unfold sorted.
  apply (foldr_permutation (=) insort []); [|done].
  intros j1 x j2 y rest Hj Hx Hy. apply insort_comm.
  intros Heq. apply Hj.
  apply (NoDup_lookup _ _ _ x.1 Hnodup).
  - by rewrite list_lookup_fmap, Hx.
  - by rewrite Heq, list_lookup_fmap, Hy.
Qed.

End message.

(** X14.  The message of the unavailable error does not depend on the order
    in which the requirements were written: they are listed by key. *)
Theorem unavailable_message_in_any_order `{Imports}
    (self : ExternalCodeImportChecker) (kwargs kwargs' : kwargs) :
  NoDup kwargs.*1 →
  kwargs ≡ₚ kwargs' →
  _format_exception_message self kwargs = _format_exception_message self kwargs'.
Proof.
  intros Hnodup Hperm. unfold _format_exception_message.
  rewrite (sorted_permutation _ _ Hnodup Hperm).
  destruct kwargs as [|x l], kwargs' as [|x' l']; try done.
  - by apply Permutation_nil_cons in Hperm.
  - symmetry in Hperm. by apply Permutation_nil_cons in Hperm.
Qed.

Lemma unavailable_message_in_any_order_witness :
  _format_exception_message (H := samples.imports) samples.echecker
    [("version", PyStr "1.0.0"); ("otherthing", PyInt 1)]
  = _format_exception_message (H := samples.imports) samples.echecker
    [("otherthing", PyInt 1); ("version", PyStr "1.0.0")].
Proof.
  apply (unavailable_message_in_any_order (H := samples.imports)).
  - simpl. apply NoDup_cons. split; [|apply NoDup_singleton].
    intros Hin%list_elem_of_singleton. discriminate Hin.
  - apply Permutation_swap.
Defined.

(** ** The decorator: errors at decoration time, repeated use *)

(** X15.  An error of the availability check is raised when the decorator
    is applied, not when the decorated object is used: with no positional
    argument or a callable one, [disabled_if_unavailable] raises whatever
    [is_available] raises, be it for a checker never acquired or for an
    unregistered key. *)
Theorem decoration_raises_what_availability_raises `{Imports}
    (self : ExternalCodeImportChecker) (kargs : list pyobj) (kwargs : kwargs)
    (e : exception) :
  is_available self kwargs = Err e →
  (∀ karg0, head kargs = Some karg0 → callable karg0 = true) →
  disabled_if_unavailable self kargs kwargs = Err e.
Proof.
  intros Hav Hcall. unfold disabled_if_unavailable.
  destruct kargs as [|karg0 rest]; simpl.
  - by rewrite Hav.
  - by rewrite (Hcall karg0 eq_refl), Hav.
Qed.

Lemma decoration_raises_what_availability_raises_witness :
  disabled_if_unavailable (H := samples.imports) samples.echecker
    [Function samples.sayhi] []
  = Err (not_attempted_yet samples.echecker).
Proof.
  apply (decoration_raises_what_availability_raises (H := samples.imports)).
  - reflexivity.
  - intros karg0 [= <-]. reflexivity.
Defined.

(** X16.  A class that resolves no [__new__] is refused with a type error
    by both forms of the decorator, whether the package is available or
    not. *)
Theorem class_without_new_is_refused `{Imports}
    (self : ExternalCodeImportChecker) (kwargs : kwargs) (available : bool)
    (c : pyclass) :
  is_available self kwargs = Ok available →
  cls_dict c !! "__new__" = None →
  disabled_if_unavailable self [Class c] kwargs
    = Err (TypeError "Old-Style classes are not supported by this module.") ∧
  ∃ actual,
    disabled_if_unavailable self [] kwargs = Ok (Decorator actual) ∧
    actual (Class c)
    = Err (TypeError "Old-Style classes are not supported by this module.").
Proof.
  intros Hav Hnew.
  assert (actual_disabled_if_unavailable self kwargs available (Class c)
          = Err (TypeError "Old-Style classes are not supported by this module."))
    as Hactual.
  { apply actual_rejects_old_style. simpl.
    apply bool_decide_eq_false_2. rewrite Hnew. by intros [? ?]. }
  split.
  - rewrite (disabled_if_unavailable_bare _ _ _ _ Hav) by done.
    by rewrite Hactual.
  - eexists. split; [by apply disabled_if_unavailable_factory|done].
Qed.

Lemma class_without_new_is_refused_witness :
  disabled_if_unavailable (H := samples.imports)
    (samples.after samples.import_fails) [Class samples.OldStyle] []
    = Err (TypeError "Old-Style classes are not supported by this module.") ∧
  ∃ actual,
    disabled_if_unavailable (H := samples.imports)
      (samples.after samples.import_fails) [] [] = Ok (Decorator actual) ∧
    actual (Class samples.OldStyle)
    = Err (TypeError "Old-Style classes are not supported by this module.").
Proof.
  apply (class_without_new_is_refused (H := samples.imports)
           (samples.after samples.import_fails) [] false samples.OldStyle);
    reflexivity.
Defined.



(** X18.  The hook put on a disabled class is a class method named
    [__new__] that carries the documentation string of the hook it
    replaces; the class keeps its name. *)
Theorem disabled_class_hook `{Imports}
    (self : ExternalCodeImportChecker) (kwargs : kwargs) (c c' : pyclass)
    (new : attribute) :
  is_available self kwargs = Ok false →
  cls_dict c !! "__new__" = Some new →
  disabled_if_unavailable self [Class c] kwargs = Ok (Decorated (Class c')) →
  cls_name c' = cls_name c ∧
  ∃ error_new,
    cls_dict c' !! "__new__" = Some (ClassMethod error_new) ∧
    __name__ error_new = "__new__" ∧
    __doc__ error_new = attribute_doc new.
Proof.
  intros Hav Hnew.
  rewrite (disabled_if_unavailable_bare _ _ _ _ Hav) by done.
  rewrite (actual_disabled_class _ _ _ _ Hnew). intros [= <-].
  split; [done|]. eexists. split; [apply lookup_insert_eq|done].
Qed.

Lemma disabled_class_hook_witness :
  ∃ c',
    disabled_if_unavailable (H := samples.imports)
      (samples.after samples.import_fails) [Class samples.Greeter] []
      = Ok (Decorated (Class c')) ∧
    cls_name c' = cls_name samples.Greeter ∧
    ∃ error_new,
      cls_dict c' !! "__new__" = Some (ClassMethod error_new) ∧
      __name__ error_new = "__new__" ∧
      __doc__ error_new
      = attribute_doc (H := samples.imports) (Method samples.object_new).
Proof.
  eexists. split; [reflexivity|].
  apply (disabled_class_hook (H := samples.imports)
           (samples.after samples.import_fails) [] samples.Greeter);
    reflexivity.
Defined.

(** X19.  The two calling conventions agree on a callable target: the bare
    decorator returns an object exactly when the decorator made by the
    factory returns that object for the same target. *)
Theorem bare_and_factory_forms_agree `{Imports}
    (self : ExternalCodeImportChecker) (kwargs : kwargs) (target o : pyobj) :
  callable target = true →
  disabled_if_unavailable self [target] kwargs = Ok (Decorated o) ↔
  ∃ actual,
    disabled_if_unavailable self [] kwargs = Ok (Decorator actual) ∧
    actual target = Ok o.
Proof.
  intros Hcall. unfold disabled_if_unavailable. rewrite Hcall. simpl.
  destruct (is_available self kwargs) as [available|e]; simpl.
  - split.
    + intros Hbare. eexists. split; [reflexivity|].
      by destruct (actual_disabled_if_unavailable self kwargs available target);
        simplify_eq/=.
    + intros (actual & [= <-] & ->). reflexivity.
  - split; [done|]. by intros (actual & ? & _).
Qed.

Lemma bare_and_factory_forms_agree_witness :
  disabled_if_unavailable (H := samples.imports)
    (samples.after samples.import_succeeds) [Function samples.sayhi] []
  = Ok (Decorated (Function samples.sayhi)) ↔
  ∃ actual,
    disabled_if_unavailable (H := samples.imports)
      (samples.after samples.import_succeeds) [] [] = Ok (Decorator actual) ∧
    actual (Function samples.sayhi) = Ok (Function samples.sayhi).
Proof.
  apply (bare_and_factory_forms_agree (H := samples.imports)).
  reflexivity.
Defined.
